(** * Todo handlers: a shallow embedding of the server-side CRUD core

    The server keeps one table of todo rows and exposes four asynchronous
    handlers.  This development embeds the handlers found in
    [server/src/handlers] as functions in a small state-and-exception
    monad over a [World] made of the table, the wall clock and the
    console, and states the repository contract over them. *)

From Stdlib Require Import ZArith List String Ascii Bool Lia DecimalString.
Import ListNotations.

Local Open Scope string_scope.
Local Open Scope list_scope.
Local Open Scope Z_scope.

(** ** The schema types *)

(** A [Date] is its number of milliseconds since the epoch. *)
Definition Date := Z.

(** [Todo]: one row of the table and the public record shape.
    [description] is [string | null]. *)
Module Todo.
Record t : Type := mk {
  id : Z;
  title : string;
  description : option string;
  completed : bool;
  created_at : Date;
  updated_at : Date
}.
End Todo.

(** [CreateTodoInput]: [{title: string, description: string | null}]. *)
Module CreateTodoInput.
Record t : Type := mk {
  title : string;
  description : option string
}.
End CreateTodoInput.

(** [UpdateTodoInput]:
    [{id: number, title?: string, description?: string | null,
      completed?: boolean}].
    An optional property is an [option] whose [None] is [undefined]; the
    description is an option of a nullable, so that [None] is "not sent",
    [Some None] is an explicit [null] and [Some (Some s)] a string. *)
Module UpdateTodoInput.
Record t : Type := mk {
  id : Z;
  title : option string;
  description : option (option string);
  completed : option bool
}.
End UpdateTodoInput.

(** [DeleteTodoInput]: [{id: number}]. *)
Module DeleteTodoInput.
Record t : Type := mk { id : Z }.
End DeleteTodoInput.

(** The acknowledgment [{ success: boolean }] of [deleteTodo]. *)
Record DeleteResult : Type := { success : bool }.

(** ** Errors, the world and the monad of handlers *)

(** A JavaScript [Error] carries a message. *)
Record Error : Type := mkError { message : string }.

(** The table [todosTable] in the store's natural order, and the sequence
    behind its auto-incrementing primary key. *)
Record Db : Type := mkDb {
  todosTable : list Todo.t;
  todos_id_seq : Z
}.

(** What a handler can touch: the database, the clock (an oracle giving
    the time of each successive reading, and the number of readings made
    so far) and the lines written with [console.error]. *)
Record World : Type := mkWorld {
  db : Db;
  clock : nat -> Date;
  reads : nat;
  console : list (string * Error)
}.

(** How a promise settles. *)
Inductive Outcome (A : Type) : Type :=
| Resolved (a : A)
| Rejected (e : Error).
Arguments Resolved {A} a.
Arguments Rejected {A} e.

(** An [async] function: from a world to a settled promise and a world. *)
Definition Async (A : Type) : Type := World -> Outcome A * World.

Definition ret {A : Type} (a : A) : Async A := fun w => (Resolved a, w).

Definition bind {A B : Type} (m : Async A) (k : A -> Async B) : Async B :=
  fun w =>
    match m w with
    | (Resolved a, w') => k a w'
    | (Rejected e, w') => (Rejected e, w')
    end.

(** [throw e]. *)
Definition throw {A : Type} (e : Error) : Async A := fun w => (Rejected e, w).

(** [try { m } catch (error) { handler error }]. *)
Definition try_catch {A : Type} (m : Async A) (handler : Error -> Async A)
  : Async A :=
  fun w =>
    match m w with
    | (Resolved a, w') => (Resolved a, w')
    | (Rejected e, w') => handler e w'
    end.

Notation "x <- m ;; k" := (bind m (fun x => k))
  (at level 61, m at next level, right associativity).
Notation "m ;;; k" := (bind m (fun _ => k))
  (at level 61, right associativity).

(** [console.error(label, error)]. *)
Definition console_error (label : string) (error : Error) : Async unit :=
  fun w =>
    (Resolved tt,
     mkWorld (db w) (clock w) (reads w) (console w ++ [(label, error)])).

(** [new Date()]: the next reading of the clock. *)
Definition new_Date : Async Date :=
  fun w =>
    (Resolved (clock w (reads w)),
     mkWorld (db w) (clock w) (S (reads w)) (console w)).

(** ** JavaScript values *)

(** [`${n}`] for an integer [n] below 10^21 in absolute value, where the
    template literal prints every digit (from there on it prints the
    exponent form); the values of the [id] column are well below. *)
Definition string_of_number (n : Z) : string :=
  NilZero.string_of_int (Z.to_int n).

(** [a || b] where [a] is [string | undefined]: [undefined] and the empty
    string are falsy. *)
Definition or_string (a : option string) (b : string) : string :=
  match a with
  | Some EmptyString => b
  | Some s => s
  | None => b
  end.

(** [a || b] where [a] is [boolean | undefined]. *)
Definition or_boolean (a : option bool) (b : bool) : bool :=
  match a with
  | Some true => true
  | Some false => b
  | None => b
  end.

(** [s.startsWith(p)]. *)
Fixpoint startsWith (p s : string) : bool :=
  match p, s with
  | EmptyString, _ => true
  | String a p', String b s' => Ascii.eqb a b && startsWith p' s'
  | String _ _, EmptyString => false
  end.

(** [hay.includes(needle)]. *)
Fixpoint includes (needle hay : string) : bool :=
  if startsWith needle hay then true
  else match hay with
       | EmptyString => false
       | String _ hay' => includes needle hay'
       end.

(** The tests recognise the not-found failure by its message
    ([/not found/i]); the handlers raise it as a plain [Error]. *)
Definition NotFound (e : Error) : bool := includes "not found" (message e).

(** ** The query builder, on [todosTable] *)

(** [eq(todosTable.id, x)]. *)
Definition eq_id (x : Z) : Todo.t -> bool := fun row => Todo.id row =? x.

(** [db.select().from(todosTable).execute()]. *)
Definition db_select_from_todosTable : Async (list Todo.t) :=
  fun w => (Resolved (todosTable (db w)), w).

(** Modelled from the spec: the [id] column, declared in [db/schema.ts],
    which is not part of the sources, is an auto-incrementing integer
    primary key; its values are the 32-bit signed integers. *)
Definition integer_column (x : Z) : bool :=
  (-2147483648 <=? x) && (x <=? 2147483647).

(** [db.delete(todosTable).where(cond).returning().execute()]: the rows
    matching [cond] leave the table and are returned.  This is the answer
    of the store to a query that compares the column with one of its
    values; a query comparing [id] with a number outside [integer_column]
    is refused by the store itself, and the statements below that depend
    on the store's answer to an id no row has are made for the ids of
    the column. *)
Definition db_delete_where_returning (cond : Todo.t -> bool)
  : Async (list Todo.t) :=
  fun w =>
    let rows := todosTable (db w) in
    (Resolved (filter cond rows),
     mkWorld (mkDb (filter (fun row => negb (cond row)) rows)
                   (todos_id_seq (db w)))
             (clock w) (reads w) (console w)).

(** ** The handlers *)

(** [handlers/get_todos.ts]. *)
Definition getTodos : Async (list Todo.t) :=
  try_catch
    (todos <- db_select_from_todosTable ;;
     ret todos)
    (fun error =>
       console_error "Failed to fetch todos:" error ;;;
       throw error).

(** The delete handler. *)
Definition deleteTodo (input : DeleteTodoInput.t) : Async DeleteResult :=
  try_catch
    (result <- db_delete_where_returning (eq_id (DeleteTodoInput.id input)) ;;
     if (List.length result =? 0)%nat
     then throw (mkError ("Todo with id "
                          ++ string_of_number (DeleteTodoInput.id input)
                          ++ " not found")%string)
     else ret {| success := true |})
    (fun error =>
       console_error "Todo deletion failed:" error ;;;
       throw error).

(** [handlers/update_todo.ts]. *)
Definition updateTodo (input : UpdateTodoInput.t) : Async Todo.t :=
  created <- new_Date ;;
  updated <- new_Date ;;
  ret (Todo.mk
         (UpdateTodoInput.id input)
         (or_string (UpdateTodoInput.title input) "Placeholder title")
         (match UpdateTodoInput.description input with
          | Some d => d
          | None => None
          end)
         (or_boolean (UpdateTodoInput.completed input) false)
         created
         updated).

(** Modelled from the spec: the insert into [todosTable], whose column
    defaults live in [db/schema.ts], which is not part of the sources.
    The store assigns the next value of the primary-key sequence to [id]
    and the operation's current time to both [created_at] and
    [updated_at], appends the row and returns it as stored. *)
Definition db_insert_into_todosTable_returning
    (title : string) (description : option string) (completed : bool)
  : Async Todo.t :=
  fun w =>
    let now := clock w (reads w) in
    let row :=
      Todo.mk (todos_id_seq (db w)) title description completed now now in
    (Resolved row,
     mkWorld (mkDb (todosTable (db w) ++ [row]) (todos_id_seq (db w) + 1))
             (clock w) (S (reads w)) (console w)).

(** Modelled from the spec: the create handler
    ([handlers/create_todo.ts] is not part of the sources).  It inserts a
    new record with [completed = false] and returns the full stored
    record. *)
Definition createTodo (input : CreateTodoInput.t) : Async Todo.t :=
  db_insert_into_todosTable_returning
    (CreateTodoInput.title input)
    (CreateTodoInput.description input)
    false.

(** Modelled from the spec: the validator's rule for the create input
    ([schema.ts] is not part of the sources): the title is a non-empty
    string, the description any nullable string. *)
Definition valid_CreateTodoInput (input : CreateTodoInput.t) : bool :=
  negb (CreateTodoInput.title input =? "")%string.

(** ** Reading the store *)

(** The ids of the live records. *)
Definition ids (d : Db) : list Z := map Todo.id (todosTable d).

(** [id] is the primary key of the table. *)
Definition primary_key (d : Db) : Prop := NoDup (ids d).

(** The stored record with a given id, if any. *)
Definition stored (x : Z) (w : World) : option Todo.t :=
  find (eq_id x) (todosTable (db w)).

(** ** Fixtures of the test suite *)

(** The row made by [createTestTodo] in the update tests, created at
    time 1000 under id 1. *)
Definition originalTodo : Todo.t :=
  Todo.mk 1 "Original Title" (Some "Original description") false 1000 1000.

(** A world holding that row only, whose clock has since moved on. *)
Definition worldWithOriginal : World :=
  mkWorld (mkDb [originalTodo] 2) (fun n => 2000 + Z.of_nat n) 0 [].

(** The world after [createDB]: an empty table. *)
Definition freshWorld : World :=
  mkWorld (mkDb [] 1) (fun n => 2000 + Z.of_nat n) 0 [].

(** The three rows of the "should only delete the specified todo" test. *)
Definition threeTodos : list Todo.t :=
  [ Todo.mk 1 "Todo 1" (Some "First todo") false 1000 1000;
    Todo.mk 2 "Todo 2" (Some "Second todo") true 1000 1000;
    Todo.mk 3 "Todo 3" (Some "Third todo") false 1000 1000 ].

Definition worldWithThree : World :=
  mkWorld (mkDb threeTodos 4) (fun n => 2000 + Z.of_nat n) 0 [].

(** ** The client: [client/src/App.tsx] *)

Declare Scope handler_scope.

Module App.

(** The component's state, one field for each [useState] cell. *)
Record State : Type := mkState {
  todos : list Todo.t;
  isLoading : bool;
  isLoadingTodos : bool;
  formData : CreateTodoInput.t
}.

(** What a handler of the component can touch: the component's state,
    the browser's console and, through the remote procedures, the world
    of the server. *)
Record Page : Type := mkPage {
  state : State;
  browser_console : list (string * Error);
  server : World
}.

(** An [async] function of the component. *)
Definition Handler (A : Type) : Type := Page -> Outcome A * Page.

Definition ret {A : Type} (a : A) : Handler A := fun p => (Resolved a, p).

Definition bind {A B : Type} (m : Handler A) (k : A -> Handler B)
  : Handler B :=
  fun p =>
    match m p with
    | (Resolved a, p') => k a p'
    | (Rejected e, p') => (Rejected e, p')
    end.

Notation "x <- m ;; k" := (bind m (fun x => k))
  (at level 61, m at next level, right associativity) : handler_scope.
Notation "m ;;; k" := (bind m (fun _ => k))
  (at level 61, right associativity) : handler_scope.
Local Open Scope handler_scope.

(** [await procedure]: the remote procedure runs on the server's world
    and settles the way it does there. *)
Definition await {A : Type} (procedure : Async A) : Handler A :=
  fun p =>
    match procedure (server p) with
    | (outcome, s) => (outcome, mkPage (state p) (browser_console p) s)
    end.

(** [try { body } catch (error) { handler error }]. *)
Definition try_catch {A : Type} (body : Handler A)
    (handler : Error -> Handler A) : Handler A :=
  fun p =>
    match body p with
    | (Resolved a, p') => (Resolved a, p')
    | (Rejected e, p') => handler e p'
    end.

(** [try { body } finally { final }]: [final] runs however [body]
    settles, and the outcome is that of [body] unless [final] itself
    rejects. *)
Definition try_finally {A : Type} (body : Handler A) (final : Handler unit)
  : Handler A :=
  fun p =>
    match body p with
    | (outcome, p') =>
        match final p' with
        | (Resolved _, p'') => (outcome, p'')
        | (Rejected e, p'') => (Rejected e, p'')
        end
    end.

(** [try { body } catch (error) { handler error } finally { final }]. *)
Definition try_catch_finally {A : Type} (body : Handler A)
    (handler : Error -> Handler A) (final : Handler unit) : Handler A :=
  try_finally (try_catch body handler) final.

(** [console.error(label, error)], in the browser. *)
Definition console_error (label : string) (error : Error) : Handler unit :=
  fun p =>
    (Resolved tt,
     mkPage (state p) (browser_console p ++ [(label, error)]) (server p)).

(** The state setters.  [setTodos] and [setFormData] take the function of
    the previous value. *)
Definition setState (f : State -> State) : Handler unit :=
  fun p => (Resolved tt, mkPage (f (state p)) (browser_console p) (server p)).

Definition setTodos (f : list Todo.t -> list Todo.t) : Handler unit :=
  setState (fun s =>
    mkState (f (todos s)) (isLoading s) (isLoadingTodos s) (formData s)).

Definition setIsLoading (b : bool) : Handler unit :=
  setState (fun s => mkState (todos s) b (isLoadingTodos s) (formData s)).

Definition setIsLoadingTodos (b : bool) : Handler unit :=
  setState (fun s => mkState (todos s) (isLoading s) b (formData s)).

Definition setFormData (f : CreateTodoInput.t -> CreateTodoInput.t)
  : Handler unit :=
  setState (fun s =>
    mkState (todos s) (isLoading s) (isLoadingTodos s) (f (formData s))).

(** [value || null] on a string: the empty string is falsy. *)
Definition or_null (value : string) : option string :=
  match value with
  | EmptyString => None
  | s => Some s
  end.

(** The [value] shown by the description box:
    [formData.description || '']. *)
Definition description_value (s : State) : string :=
  or_string (CreateTodoInput.description (formData s)) "".

(** The [onChange] of the title input. *)
Definition title_onChange (value : string) : Handler unit :=
  setFormData (fun prev =>
    CreateTodoInput.mk value (CreateTodoInput.description prev)).

(** The [onChange] of the description box. *)
Definition description_onChange (value : string) : Handler unit :=
  setFormData (fun prev =>
    CreateTodoInput.mk (CreateTodoInput.title prev) (or_null value)).

(** The two counts of the header. *)
Definition completedCount (s : State) : nat :=
  List.length (filter Todo.completed (todos s)).

Definition totalCount (s : State) : nat := List.length (todos s).

Section Handlers.

(** The procedures of the [trpc] client, each an asynchronous function on
    the world of the server, and [String.prototype.trim]. *)
Variable getTodos_query : Async (list Todo.t).
Variable createTodo_mutate : CreateTodoInput.t -> Async Todo.t.
Variable updateTodo_mutate : UpdateTodoInput.t -> Async Todo.t.
Variable deleteTodo_mutate : DeleteTodoInput.t -> Async DeleteResult.
Variable trim : string -> string.

(** [loadTodos]. *)
Definition loadTodos : Handler unit :=
  try_catch_finally
    (setIsLoadingTodos true ;;;
     result <- await getTodos_query ;;
     setTodos (fun _ => result))
    (fun error => console_error "Failed to load todos:" error)
    (setIsLoadingTodos false).

(** [handleSubmit], after [e.preventDefault()].  The form data are those
    of the render the handler was made in. *)
Definition handleSubmit : Handler unit :=
  fun p =>
    let formData := formData (state p) in
    if (trim (CreateTodoInput.title formData) =? "")%string
    then ret tt p
    else
      (setIsLoading true ;;;
       try_catch_finally
         (newTodo <- await (createTodo_mutate formData) ;;
          setTodos (fun prev => prev ++ [newTodo]) ;;;
          setFormData (fun _ => CreateTodoInput.mk "" None))
         (fun error => console_error "Failed to create todo:" error)
         (setIsLoading false)) p.

(** [toggleTodo]. *)
Definition toggleTodo (todo : Todo.t) : Handler unit :=
  try_catch
    (updatedTodo <-
       await (updateTodo_mutate
                (UpdateTodoInput.mk (Todo.id todo) None None
                                    (Some (negb (Todo.completed todo))))) ;;
     setTodos (fun prev =>
       map (fun t => if Todo.id t =? Todo.id todo then updatedTodo else t)
           prev))
    (fun error => console_error "Failed to update todo:" error).

(** [deleteTodo], the handler of the delete button. *)
Definition deleteTodo (todoId : Z) : Handler unit :=
  try_catch
    (await (deleteTodo_mutate (DeleteTodoInput.mk todoId)) ;;;
     setTodos (fun prev =>
       filter (fun t => negb (Todo.id t =? todoId)) prev))
    (fun error => console_error "Failed to delete todo:" error).

End Handlers.

End App.

(** [String.prototype.trim] on strings of code units below 256, where
    the white space and line terminators are the tab, the line feed, the
    vertical tab, the form feed, the carriage return, the space and the
    no-break space. *)
Definition isWhiteSpace (c : ascii) : bool :=
  existsb (N.eqb (N_of_ascii c)) [9; 10; 11; 12; 13; 32; 160]%N.

Fixpoint trimStart (s : string) : string :=
  match s with
  | EmptyString => EmptyString
  | String c s' => if isWhiteSpace c then trimStart s' else s
  end.

Fixpoint trimEnd (s : string) : string :=
  match s with
  | EmptyString => EmptyString
  | String c s' =>
      match trimEnd s' with
      | EmptyString => if isWhiteSpace c then EmptyString else String c ""
      | rest => String c rest
      end
  end.

Definition trim (s : string) : string := trimEnd (trimStart s).

(** A page showing the three rows of the server, and a page over an empty
    server with a title typed in the form. *)
Definition pageWithThree : App.Page :=
  App.mkPage (App.mkState threeTodos false false (CreateTodoInput.mk "" None))
             [] worldWithThree.

Definition pageWithTitle : App.Page :=
  App.mkPage (App.mkState [] false true (CreateTodoInput.mk "Buy milk" None))
             [] freshWorld.

(** ** Auxiliary facts *)

Section Lists.
Context {A : Type}.
Variable cond : A -> bool.

Lemma filter_nothing (l : list A) :
  (forall a, In a l -> cond a = false) -> filter cond l = [].
Proof.
  induction l as [|a l IH]; intros H; simpl; [reflexivity|].
  rewrite (H a (or_introl eq_refl)). apply IH.
  intros b Hb. apply H. now right.
Qed.

Lemma filter_everything (l : list A) :
  (forall a, In a l -> cond a = false) ->
  filter (fun a => negb (cond a)) l = l.
Proof.
  induction l as [|a l IH]; intros H; simpl; [reflexivity|].
  rewrite (H a (or_introl eq_refl)). simpl. f_equal. apply IH.
  intros b Hb. apply H. now right.
Qed.

Lemma filter_something (l : list A) (a : A) :
  In a l -> cond a = true -> filter cond l <> [].
Proof.
  intros Hin Ha Hnil.
  assert (Hf : In a (filter cond l)) by (apply filter_In; now split).
  rewrite Hnil in Hf. exact Hf.
Qed.
End Lists.

Lemma eq_id_true (x : Z) (row : Todo.t) :
  eq_id x row = true <-> Todo.id row = x.
Proof. unfold eq_id. apply Z.eqb_eq. Qed.

Lemma eq_id_false (x : Z) (row : Todo.t) :
  eq_id x row = false <-> Todo.id row <> x.
Proof. unfold eq_id. apply Z.eqb_neq. Qed.

Lemma append_assoc (a b c : string) :
  ((a ++ b) ++ c = a ++ b ++ c)%string.
Proof. induction a as [|x a IH]; simpl; [reflexivity | now rewrite IH]. Qed.

Lemma startsWith_append (p s : string) :
  startsWith p (p ++ s)%string = true.
Proof.
  induction p as [|c p IH]; simpl.
  - reflexivity.
  - now rewrite Ascii.eqb_refl, IH.
Qed.

Lemma includes_at_start (needle hay : string) :
  startsWith needle hay = true -> includes needle hay = true.
Proof. intros H. destruct hay; simpl; now rewrite H. Qed.

Lemma includes_append (needle before after : string) :
  includes needle (before ++ needle ++ after)%string = true.
Proof.
  induction before as [|c before IH]; simpl.
  - apply includes_at_start, startsWith_append.
  - destruct (startsWith needle (String c (before ++ needle ++ after)));
      [reflexivity | exact IH].
Qed.

(** The error raised by the delete handler is a not-found error, whatever
    the id. *)
Lemma not_found_message (x : Z) :
  NotFound
    (mkError ("Todo with id " ++ string_of_number x ++ " not found")%string)
  = true.
Proof.
  unfold NotFound. cbn [message].
  assert (E : ("Todo with id " ++ string_of_number x ++ " not found")%string
              = (("Todo with id " ++ string_of_number x ++ " ")
                   ++ "not found" ++ "")%string).
  { simpl. now rewrite append_assoc. }
  rewrite E. apply includes_append.
Qed.

(** Under the primary key, deleting by id takes one row out of the table
    and leaves the rows around it as they were, in their order. *)
Lemma delete_by_key_splits (rows : list Todo.t) (row : Todo.t) :
  NoDup (map Todo.id rows) -> In row rows ->
  exists before after,
    rows = before ++ row :: after /\
    filter (eq_id (Todo.id row)) rows = [row] /\
    filter (fun r => negb (eq_id (Todo.id row) r)) rows = before ++ after.
Proof.
  intros Hnd Hin.
  destruct (in_split _ _ Hin) as (before & after & ->).
  exists before, after. split; [reflexivity|].
  rewrite map_app in Hnd. simpl in Hnd.
  pose proof (NoDup_remove_2 _ _ _ Hnd) as Hfresh.
  assert (Hb : forall a, In a before -> eq_id (Todo.id row) a = false).
  { intros a Ha. apply eq_id_false. intros E. apply Hfresh.
    apply in_or_app. left. rewrite <- E. now apply in_map. }
  assert (Ha : forall a, In a after -> eq_id (Todo.id row) a = false).
  { intros a Ha. apply eq_id_false. intros E. apply Hfresh.
    apply in_or_app. right. rewrite <- E. now apply in_map. }
  assert (Hr : eq_id (Todo.id row) row = true) by now apply eq_id_true.
  rewrite !filter_app. simpl. rewrite Hr. simpl.
  rewrite (filter_nothing _ _ Hb), (filter_nothing _ _ Ha).
  rewrite (filter_everything _ _ Hb), (filter_everything _ _ Ha).
  split; reflexivity.
Qed.

(** ** What each handler computes *)

(** The delete handler, run: the rows with the given id leave the table;
    when there was none the error is logged and raised again. *)
Lemma deleteTodo_run (input : DeleteTodoInput.t) (w : World) :
  let x := DeleteTodoInput.id input in
  let rows := todosTable (db w) in
  let kept := mkDb (filter (fun r => negb (eq_id x r)) rows)
                   (todos_id_seq (db w)) in
  let error :=
    mkError ("Todo with id " ++ string_of_number x ++ " not found")%string in
  deleteTodo input w =
    match filter (eq_id x) rows with
    | [] =>
        (Rejected error,
         mkWorld kept (clock w) (reads w)
                 (console w ++ [("Todo deletion failed:", error)]))
    | _ :: _ =>
        (Resolved {| success := true |},
         mkWorld kept (clock w) (reads w) (console w))
    end.
Proof.
  unfold deleteTodo, try_catch, bind, db_delete_where_returning. cbn zeta.
  destruct (filter (eq_id (DeleteTodoInput.id input)) (todosTable (db w)));
    reflexivity.
Qed.

(** The select-all handler, run: the table as it stands, and a world left
    as it was. *)
Lemma getTodos_run (w : World) :
  getTodos w = (Resolved (todosTable (db w)), w).
Proof. reflexivity. Qed.

(** The update handler, run: a record built from the input and two
    readings of the clock; the database is not consulted. *)
Lemma updateTodo_run (input : UpdateTodoInput.t) (w : World) :
  updateTodo input w =
    (Resolved
       (Todo.mk
          (UpdateTodoInput.id input)
          (or_string (UpdateTodoInput.title input) "Placeholder title")
          (match UpdateTodoInput.description input with
           | Some d => d
           | None => None
           end)
          (or_boolean (UpdateTodoInput.completed input) false)
          (clock w (reads w))
          (clock w (S (reads w)))),
     mkWorld (db w) (clock w) (S (S (reads w))) (console w)).
Proof. reflexivity. Qed.

(** ** The delete handler *)

(** C3: a delete whose id, a value of the integer column, matches no
    record fails with the not-found error, "Todo with id N not found",
    found by the emptiness of the returned rows, and the table and its
    sequence are after the call what they were before it. *)
Theorem deleteTodo_missing_id_not_found
    (input : DeleteTodoInput.t) (w : World) :
  integer_column (DeleteTodoInput.id input) = true ->
  (forall row, In row (todosTable (db w)) ->
               Todo.id row <> DeleteTodoInput.id input) ->
  exists e w',
    deleteTodo input w = (Rejected e, w') /\
    NotFound e = true /\
    message e
    = ("Todo with id " ++ string_of_number (DeleteTodoInput.id input)
       ++ " not found")%string /\
    db w' = db w.
Proof.
  intros _ Hmiss.
  assert (Hnone : forall row, In row (todosTable (db w)) ->
                    eq_id (DeleteTodoInput.id input) row = false).
  { intros row Hin. apply eq_id_false. now apply Hmiss. }
  pose proof (deleteTodo_run input w) as Hrun. cbn zeta in Hrun.
  rewrite (filter_nothing _ _ Hnone), (filter_everything _ _ Hnone) in Hrun.
  eexists. eexists. split; [exact Hrun|]. split; [|split].
  - apply not_found_message.
  - reflexivity.
  - simpl. now destruct (db w).
Qed.

Lemma deleteTodo_missing_id_not_found_witness :
  integer_column (DeleteTodoInput.id (DeleteTodoInput.mk 999)) = true /\
  (forall row, In row (todosTable (db worldWithThree)) ->
               Todo.id row <> DeleteTodoInput.id (DeleteTodoInput.mk 999)) /\
  exists e w',
    deleteTodo (DeleteTodoInput.mk 999) worldWithThree = (Rejected e, w') /\
    NotFound e = true /\
    message e
    = ("Todo with id "
       ++ string_of_number (DeleteTodoInput.id (DeleteTodoInput.mk 999))
       ++ " not found")%string /\
    db w' = db worldWithThree.
Proof.
  assert (Hrange :
            integer_column (DeleteTodoInput.id (DeleteTodoInput.mk 999))
            = true) by reflexivity.
  assert (Hmiss : forall row, In row (todosTable (db worldWithThree)) ->
                    Todo.id row
                    <> DeleteTodoInput.id (DeleteTodoInput.mk 999)).
  { intros row Hin. simpl in Hin.
    destruct Hin as [<-|[<-|[<-|[]]]]; discriminate. }
  split; [exact Hrange|]. split; [exact Hmiss|].
  exact (deleteTodo_missing_id_not_found
           (DeleteTodoInput.mk 999) worldWithThree Hrange Hmiss).
Defined.

(** C8: a delete on an id that some record has succeeds; afterwards a
    record is in the table exactly when it was there before and has
    another id, so the other records keep their presence and fields; the
    listing that follows holds no record with the deleted id; and, [id]
    being the primary key, exactly one row is gone, the rows around it in
    their places. *)
Theorem deleteTodo_existing_removes_only_that_id
    (input : DeleteTodoInput.t) (w : World) :
  (exists row, In row (todosTable (db w)) /\
               Todo.id row = DeleteTodoInput.id input) ->
  exists w',
    deleteTodo input w = (Resolved {| success := true |}, w') /\
    (forall row, In row (todosTable (db w')) <->
                 In row (todosTable (db w)) /\
                 Todo.id row <> DeleteTodoInput.id input) /\
    (exists todos w'',
        getTodos w' = (Resolved todos, w'') /\
        forall row, In row todos ->
                    Todo.id row <> DeleteTodoInput.id input) /\
    (primary_key (db w) ->
     exists before gone after,
       todosTable (db w) = before ++ gone :: after /\
       Todo.id gone = DeleteTodoInput.id input /\
       todosTable (db w') = before ++ after).
Proof.
  intros (row & Hin & Hid).
  pose proof (deleteTodo_run input w) as Hrun. cbn zeta in Hrun.
  destruct (filter (eq_id (DeleteTodoInput.id input)) (todosTable (db w)))
    as [|r rs] eqn:Hgone.
  { exfalso. apply (filter_something _ _ row Hin) in Hgone; [exact Hgone|].
    now apply eq_id_true. }
  eexists. split; [exact Hrun|]. cbn [db todosTable].
  assert (Hkept : forall r0,
             In r0 (filter (fun r1 => negb (eq_id (DeleteTodoInput.id input) r1))
                           (todosTable (db w))) <->
             In r0 (todosTable (db w)) /\
             Todo.id r0 <> DeleteTodoInput.id input).
  { intros r0. rewrite filter_In, negb_true_iff, eq_id_false. reflexivity. }
  split; [exact Hkept|]. split.
  - eexists. eexists. split; [apply getTodos_run|].
    cbn [db todosTable]. intros r0 Hr0. now apply Hkept in Hr0.
  - intros Hpk.
    destruct (delete_by_key_splits _ row Hpk Hin)
      as (before & after & Hrows & _ & Hrest).
    exists before, row, after. rewrite <- Hid. auto.
Qed.

Lemma deleteTodo_existing_removes_only_that_id_witness :
  (exists row, In row (todosTable (db worldWithThree)) /\
               Todo.id row = DeleteTodoInput.id (DeleteTodoInput.mk 2)) /\
  exists w',
    deleteTodo (DeleteTodoInput.mk 2) worldWithThree
      = (Resolved {| success := true |}, w') /\
    (forall row, In row (todosTable (db w')) <->
                 In row (todosTable (db worldWithThree)) /\
                 Todo.id row <> DeleteTodoInput.id (DeleteTodoInput.mk 2)) /\
    (exists todos w'',
        getTodos w' = (Resolved todos, w'') /\
        forall row, In row todos ->
                    Todo.id row <> DeleteTodoInput.id (DeleteTodoInput.mk 2)) /\
    (primary_key (db worldWithThree) ->
     exists before gone after,
       todosTable (db worldWithThree) = before ++ gone :: after /\
       Todo.id gone = DeleteTodoInput.id (DeleteTodoInput.mk 2) /\
       todosTable (db w') = before ++ after).
Proof.
  assert (H : exists row, In row (todosTable (db worldWithThree)) /\
                Todo.id row = DeleteTodoInput.id (DeleteTodoInput.mk 2)).
  { exists (Todo.mk 2 "Todo 2" (Some "Second todo") true 1000 1000).
    split; [simpl; tauto | reflexivity]. }
  split; [exact H|].
  exact (deleteTodo_existing_removes_only_that_id
           (DeleteTodoInput.mk 2) worldWithThree H).
Defined.

(** C9: whenever the delete handler resolves, whatever the input and the
    world, the acknowledgment is [{success: true}] and so never
    [{success: false}]; a failure is a rejected promise. *)
Theorem deleteTodo_resolves_with_success_true
    (input : DeleteTodoInput.t) (w w' : World) (r : DeleteResult) :
  deleteTodo input w = (Resolved r, w') ->
  r = {| success := true |} /\ success r <> false.
Proof.
  rewrite deleteTodo_run. cbn zeta.
  destruct (filter (eq_id (DeleteTodoInput.id input)) (todosTable (db w)));
    intros H; inversion H; subst.
  split; [reflexivity | discriminate].
Qed.

Lemma deleteTodo_resolves_with_success_true_witness :
  exists r w',
    deleteTodo (DeleteTodoInput.mk 2) worldWithThree = (Resolved r, w') /\
    r = {| success := true |} /\ success r <> false.
Proof.
  eexists. eexists.
  assert (H : deleteTodo (DeleteTodoInput.mk 2) worldWithThree
              = (Resolved {| success := true |},
                 snd (deleteTodo (DeleteTodoInput.mk 2) worldWithThree)))
    by reflexivity.
  split; [exact H|].
  exact (deleteTodo_resolves_with_success_true _ _ _ _ H).
Defined.

(** ** The select-all handler *)

(** C7: the listing resolves with the table as it stands, so a record is
    listed exactly when it is live, and the world is left as it was; over
    an empty table the result is the empty list, a value and not an
    absence. *)
Theorem getTodos_lists_the_store (w : World) :
  exists todos,
    getTodos w = (Resolved todos, w) /\
    todos = todosTable (db w) /\
    (forall row, In row todos <-> In row (todosTable (db w))) /\
    (todosTable (db w) = [] -> getTodos w = (Resolved [], w)).
Proof.
  exists (todosTable (db w)). rewrite getTodos_run.
  repeat split; auto.
  intros ->. reflexivity.
Qed.

(** ** The update handler *)

(** C10: for every input and every world the update handler resolves,
    and the record it resolves with carries the id given in the input. *)
Theorem updateTodo_returns_input_id (input : UpdateTodoInput.t) (w : World) :
  exists t w',
    updateTodo input w = (Resolved t, w') /\
    Todo.id t = UpdateTodoInput.id input.
Proof.
  eexists. eexists. split; [apply updateTodo_run | reflexivity].
Qed.

(** C1: the first update test, run.  The stored record has the
    description "Original description" and the input sends a title
    only; the record returned carries the new title but a null
    description, where the partial merge keeps the stored one. *)
Theorem updateTodo_title_only_loses_description :
  let input := UpdateTodoInput.mk 1 (Some "Updated Title") None None in
  let result := Todo.mk 1 "Updated Title" None false 2000 2001 in
  stored 1 worldWithOriginal = Some originalTodo /\
  fst (updateTodo input worldWithOriginal) = Resolved result /\
  Todo.description result <> Todo.description originalTodo.
Proof.
  cbn zeta. repeat split. discriminate.
Qed.

(** C2: the missing-id update test, run.  No record has id 999, yet the
    handler resolves, with a record made up from the input, where the
    contract is a not-found failure. *)
Theorem updateTodo_missing_id_resolves :
  let input := UpdateTodoInput.mk 999 (Some "Updated Title") None None in
  stored 999 freshWorld = None /\
  fst (updateTodo input freshWorld)
    = Resolved (Todo.mk 999 "Updated Title" None false 2000 2001) /\
  db (snd (updateTodo input freshWorld)) = db freshWorld.
Proof.
  cbn zeta. repeat split.
Qed.

(** C4: over a stored description that is not null, an update sending
    [description: null] and an update omitting [description] resolve
    with the same record, whose description is null: the omission does
    not keep the stored description and the two inputs are not told
    apart. *)
Theorem updateTodo_omitted_description_as_null :
  let explicit_null := UpdateTodoInput.mk 1 None (Some None) None in
  let omitted := UpdateTodoInput.mk 1 None None None in
  let result := Todo.mk 1 "Placeholder title" None false 2000 2001 in
  stored 1 worldWithOriginal = Some originalTodo /\
  Todo.description originalTodo = Some "Original description" /\
  fst (updateTodo explicit_null worldWithOriginal) = Resolved result /\
  fst (updateTodo omitted worldWithOriginal) = Resolved result /\
  Todo.description result = None.
Proof.
  cbn zeta. repeat split.
Qed.

(** C5: the timestamp-only update test, run.  The stored record was
    created at time 1000; the record returned for an update at time 2000
    has the time of the update as its [created_at] too. *)
Theorem updateTodo_overwrites_created_at :
  let input := UpdateTodoInput.mk 1 None None None in
  let result := Todo.mk 1 "Placeholder title" None false 2000 2001 in
  stored 1 worldWithOriginal = Some originalTodo /\
  fst (updateTodo input worldWithOriginal) = Resolved result /\
  Todo.created_at originalTodo = 1000 /\
  Todo.created_at result = 2000 /\
  Todo.created_at result <> Todo.created_at originalTodo.
Proof.
  cbn zeta. repeat split. discriminate.
Qed.

(** ** The create handler *)

(** C6: for every valid create input the handler resolves with a record
    that is not completed, whose id is the one the store's sequence
    generated, whose title and description are the given ones and whose
    [created_at] and [updated_at] are both the reading of the clock made
    by the operation; that record is the one added to the table. *)
Theorem createTodo_returns_fresh_record
    (input : CreateTodoInput.t) (w : World) :
  valid_CreateTodoInput input = true ->
  exists t w',
    createTodo input w = (Resolved t, w') /\
    Todo.completed t = false /\
    Todo.id t = todos_id_seq (db w) /\
    Todo.title t = CreateTodoInput.title input /\
    Todo.description t = CreateTodoInput.description input /\
    Todo.created_at t = Todo.updated_at t /\
    Todo.created_at t = clock w (reads w) /\
    todosTable (db w') = todosTable (db w) ++ [t].
Proof.
  intros _. eexists. eexists. split; [reflexivity|].
  repeat split.
Qed.

Lemma createTodo_returns_fresh_record_witness :
  valid_CreateTodoInput (CreateTodoInput.mk "Buy milk" None) = true /\
  exists t w',
    createTodo (CreateTodoInput.mk "Buy milk" None) freshWorld
      = (Resolved t, w') /\
    Todo.completed t = false /\
    Todo.id t = todos_id_seq (db freshWorld) /\
    Todo.title t = CreateTodoInput.title (CreateTodoInput.mk "Buy milk" None) /\
    Todo.description t
      = CreateTodoInput.description (CreateTodoInput.mk "Buy milk" None) /\
    Todo.created_at t = Todo.updated_at t /\
    Todo.created_at t = clock freshWorld (reads freshWorld) /\
    todosTable (db w') = todosTable (db freshWorld) ++ [t].
Proof.
  split; [reflexivity|].
  apply (createTodo_returns_fresh_record
           (CreateTodoInput.mk "Buy milk" None) freshWorld).
  reflexivity.
Defined.


(** ** More on the delete handler *)

Lemma deleteTodo_db (input : DeleteTodoInput.t) (w : World) :
  db (snd (deleteTodo input w)) =
    mkDb (filter (fun r => negb (eq_id (DeleteTodoInput.id input) r))
                 (todosTable (db w)))
         (todos_id_seq (db w)).
Proof.
  rewrite deleteTodo_run. cbn zeta.
  destruct (filter (eq_id (DeleteTodoInput.id input)) (todosTable (db w)));
    reflexivity.
Qed.

Lemma deleteTodo_outcome (input : DeleteTodoInput.t) (w : World) :
  fst (deleteTodo input w) =
    match filter (eq_id (DeleteTodoInput.id input)) (todosTable (db w)) with
    | [] =>
        Rejected
          (mkError ("Todo with id "
                    ++ string_of_number (DeleteTodoInput.id input)
                    ++ " not found")%string)
    | _ :: _ => Resolved {| success := true |}
    end.
Proof.
  rewrite deleteTodo_run. cbn zeta.
  destruct (filter (eq_id (DeleteTodoInput.id input)) (todosTable (db w)));
    reflexivity.
Qed.

Lemma filter_swap {A : Type} (p q : A -> bool) (l : list A) :
  filter p (filter q l) = filter q (filter p l).
Proof.
  induction l as [|a l IH]; simpl; [reflexivity|].
  destruct (q a) eqn:Hq, (p a) eqn:Hp; simpl;
    rewrite ?Hq, ?Hp, IH; reflexivity.
Qed.

Lemma filter_other_id (x y : Z) (rows : list Todo.t) :
  x <> y ->
  filter (eq_id y) (filter (fun r => negb (eq_id x r)) rows)
  = filter (eq_id y) rows.
Proof.
  intros Hxy. induction rows as [|a rows IH]; simpl; [reflexivity|].
  destruct (eq_id x a) eqn:Hx; simpl.
  - apply eq_id_true in Hx.
    assert (Hy : eq_id y a = false) by (apply eq_id_false; congruence).
    now rewrite Hy.
  - now rewrite IH.
Qed.

(** Taking rows out of the table cannot make two of the rows left share
    an id. *)
Lemma distinct_ids_after_filter (keep : Todo.t -> bool) (rows : list Todo.t) :
  NoDup (map Todo.id rows) -> NoDup (map Todo.id (filter keep rows)).
Proof.
  intros Hdistinct. induction rows as [|row rows IH]; simpl.
  - constructor.
  - simpl in Hdistinct. apply NoDup_cons_iff in Hdistinct.
    destruct Hdistinct as [Hfresh Hrest].
    destruct (keep row); simpl.
    + constructor.
      * intros Hin. apply Hfresh.
        apply in_map_iff in Hin. destruct Hin as (other & Hid & Hin).
        apply filter_In in Hin. rewrite <- Hid. apply in_map, Hin.
      * apply IH, Hrest.
    + apply IH, Hrest.
Qed.

(** X1: the delete handler is not idempotent.  For an id of the integer
    column, whatever a first delete of it did, a second delete of the
    same id right after it fails with the error "Todo with id N not
    found" and leaves the database as the first left it. *)
Theorem deleteTodo_again_not_found (input : DeleteTodoInput.t) (w : World) :
  integer_column (DeleteTodoInput.id input) = true ->
  exists e w2,
    deleteTodo input (snd (deleteTodo input w)) = (Rejected e, w2) /\
    e = mkError ("Todo with id "
                 ++ string_of_number (DeleteTodoInput.id input)
                 ++ " not found")%string /\
    NotFound e = true /\
    db w2 = db (snd (deleteTodo input w)).
Proof.
  intros _.
  set (w1 := snd (deleteTodo input w)).
  assert (Hnone : forall row, In row (todosTable (db w1)) ->
                    eq_id (DeleteTodoInput.id input) row = false).
  { intros row. unfold w1. rewrite deleteTodo_db. cbn [todosTable].
    rewrite filter_In, negb_true_iff. tauto. }
  pose proof (deleteTodo_run input w1) as Hrun. cbn zeta in Hrun.
  rewrite (filter_nothing _ _ Hnone), (filter_everything _ _ Hnone) in Hrun.
  eexists. eexists. split; [exact Hrun|]. split; [reflexivity|]. split.
  - apply not_found_message.
  - simpl. now destruct (db w1).
Qed.

Lemma deleteTodo_again_not_found_witness :
  let first := snd (deleteTodo (DeleteTodoInput.mk 2) worldWithThree) in
  integer_column (DeleteTodoInput.id (DeleteTodoInput.mk 2)) = true /\
  exists e w2,
    deleteTodo (DeleteTodoInput.mk 2) first = (Rejected e, w2) /\
    e = mkError ("Todo with id "
                 ++ string_of_number (DeleteTodoInput.id (DeleteTodoInput.mk 2))
                 ++ " not found")%string /\
    NotFound e = true /\
    db w2 = db first.
Proof.
  cbn zeta.
  assert (Hrange :
            integer_column (DeleteTodoInput.id (DeleteTodoInput.mk 2)) = true)
    by reflexivity.
  split; [exact Hrange|].
  exact (deleteTodo_again_not_found (DeleteTodoInput.mk 2) worldWithThree
           Hrange).
Defined.

(** X2: the delete handler keeps the primary key.  If no two rows share
    an id before the call, none do after it, whatever the input and the
    outcome; every row left was there before, and the sequence behind the
    ids is not moved, so that a deleted id is not handed out again. *)
Theorem deleteTodo_keeps_primary_key (input : DeleteTodoInput.t) (w : World) :
  primary_key (db w) ->
  primary_key (db (snd (deleteTodo input w))) /\
  incl (todosTable (db (snd (deleteTodo input w)))) (todosTable (db w)) /\
  todos_id_seq (db (snd (deleteTodo input w))) = todos_id_seq (db w).
Proof.
  intros Hpk. rewrite deleteTodo_db. unfold primary_key, ids in *.
  cbn [todosTable todos_id_seq]. split; [|split].
  - now apply distinct_ids_after_filter.
  - intros r Hr. now apply filter_In in Hr.
  - reflexivity.
Qed.

Lemma deleteTodo_keeps_primary_key_witness :
  primary_key (db worldWithThree) /\
  primary_key (db (snd (deleteTodo (DeleteTodoInput.mk 2) worldWithThree))) /\
  incl (todosTable (db (snd (deleteTodo (DeleteTodoInput.mk 2) worldWithThree))))
       (todosTable (db worldWithThree)) /\
  todos_id_seq (db (snd (deleteTodo (DeleteTodoInput.mk 2) worldWithThree)))
  = todos_id_seq (db worldWithThree).
Proof.
  assert (H : primary_key (db worldWithThree)).
  { unfold primary_key, ids. simpl.
    repeat (constructor; [simpl; intuition discriminate|]). constructor. }
  split; [exact H|].
  exact (deleteTodo_keeps_primary_key (DeleteTodoInput.mk 2) worldWithThree H).
Defined.

(** X3: a failed delete is logged once, under "Todo deletion failed:"
    and with the very error the promise rejects with; a successful delete
    logs nothing; neither reads the clock. *)
Theorem deleteTodo_logs_its_failure (input : DeleteTodoInput.t) (w : World) :
  reads (snd (deleteTodo input w)) = reads w /\
  match fst (deleteTodo input w) with
  | Resolved _ => console (snd (deleteTodo input w)) = console w
  | Rejected e =>
      console (snd (deleteTodo input w))
      = console w ++ [("Todo deletion failed:", e)]
  end.
Proof.
  rewrite deleteTodo_run. cbn zeta.
  destruct (filter (eq_id (DeleteTodoInput.id input)) (todosTable (db w)));
    split; reflexivity.
Qed.

(** X4: deletes of two different ids do not interfere.  Deleting [x]
    first does not change how the delete of [y] settles, and the other
    way round, and the database after both deletes is the same in either
    order. *)
Theorem deleteTodo_distinct_ids_commute (x y : Z) (w : World) :
  x <> y ->
  let delete_x := deleteTodo (DeleteTodoInput.mk x) in
  let delete_y := deleteTodo (DeleteTodoInput.mk y) in
  fst (delete_y (snd (delete_x w))) = fst (delete_y w) /\
  fst (delete_x (snd (delete_y w))) = fst (delete_x w) /\
  db (snd (delete_y (snd (delete_x w)))) = db (snd (delete_x (snd (delete_y w)))).
Proof.
  intros Hxy. cbn zeta.
  rewrite !deleteTodo_outcome, !deleteTodo_db.
  cbn [DeleteTodoInput.id todosTable todos_id_seq].
  rewrite (filter_other_id x y _ Hxy).
  rewrite (filter_other_id y x _ (not_eq_sym Hxy)).
  repeat split. f_equal. apply filter_swap.
Qed.

Lemma deleteTodo_distinct_ids_commute_witness :
  1 <> 3 /\
  fst (deleteTodo (DeleteTodoInput.mk 3)
         (snd (deleteTodo (DeleteTodoInput.mk 1) worldWithThree)))
  = fst (deleteTodo (DeleteTodoInput.mk 3) worldWithThree) /\
  fst (deleteTodo (DeleteTodoInput.mk 1)
         (snd (deleteTodo (DeleteTodoInput.mk 3) worldWithThree)))
  = fst (deleteTodo (DeleteTodoInput.mk 1) worldWithThree) /\
  db (snd (deleteTodo (DeleteTodoInput.mk 3)
            (snd (deleteTodo (DeleteTodoInput.mk 1) worldWithThree))))
  = db (snd (deleteTodo (DeleteTodoInput.mk 1)
              (snd (deleteTodo (DeleteTodoInput.mk 3) worldWithThree)))).
Proof.
  assert (H : 1 <> 3) by discriminate.
  split; [exact H|].
  exact (deleteTodo_distinct_ids_commute 1 3 worldWithThree H).
Defined.

(** ** More on the update handler *)

(** X5: every field sent with an update comes back as sent: a title that
    is not the empty string, a description (a string or the explicit
    null) and a completed flag each equal the input's value in the record
    the handler resolves with, whatever the other fields and the world. *)
Theorem updateTodo_sent_fields_returned
    (input : UpdateTodoInput.t) (w : World) :
  exists t w',
    updateTodo input w = (Resolved t, w') /\
    (forall s, UpdateTodoInput.title input = Some s -> s <> ""%string ->
               Todo.title t = s) /\
    (forall d, UpdateTodoInput.description input = Some d ->
               Todo.description t = d) /\
    (forall b, UpdateTodoInput.completed input = Some b ->
               Todo.completed t = b).
Proof.
  eexists. eexists. split; [apply updateTodo_run|]. cbn [Todo.title
    Todo.description Todo.completed]. repeat split.
  - intros s -> Hs. destruct s; [now elim Hs | reflexivity].
  - now intros d ->.
  - intros b ->. now destruct b.
Qed.

(** X6: what an update does with a field that is not sent: the title
    comes back as "Placeholder title", and so does a title sent as the
    empty string; the description comes back null and the completed flag
    false, whatever the world holds. *)
Theorem updateTodo_unsent_fields_defaulted
    (input : UpdateTodoInput.t) (w : World) :
  exists t w',
    updateTodo input w = (Resolved t, w') /\
    (UpdateTodoInput.title input = None \/
     UpdateTodoInput.title input = Some ""%string ->
     Todo.title t = "Placeholder title"%string) /\
    (UpdateTodoInput.description input = None -> Todo.description t = None) /\
    (UpdateTodoInput.completed input = None -> Todo.completed t = false).
Proof.
  eexists. eexists. split; [apply updateTodo_run|]. cbn [Todo.title
    Todo.description Todo.completed]. repeat split.
  - now intros [-> | ->].
  - now intros ->.
  - now intros ->.
Qed.

(** X7: the update handler writes nothing.  For every input the database
    and the console after the call are those before it, the listing that
    follows an update is the listing that preceded it, and a delete
    settles after the update the way it would have before. *)
Theorem updateTodo_writes_nothing
    (input : UpdateTodoInput.t) (target : DeleteTodoInput.t) (w : World) :
  db (snd (updateTodo input w)) = db w /\
  console (snd (updateTodo input w)) = console w /\
  fst (getTodos (snd (updateTodo input w))) = fst (getTodos w) /\
  fst (deleteTodo target (snd (updateTodo input w)))
  = fst (deleteTodo target w).
Proof.
  rewrite updateTodo_run. cbn [snd db console].
  rewrite !getTodos_run, !deleteTodo_outcome. cbn [fst db].
  repeat split.
Qed.

(** X8: under a clock that does not go back, the record an update
    resolves with has [created_at <= updated_at]; the two are the two
    readings of the clock the handler makes, in that order. *)
Theorem updateTodo_timestamps_ordered
    (input : UpdateTodoInput.t) (w : World) :
  (forall n, clock w n <= clock w (S n)) ->
  exists t w',
    updateTodo input w = (Resolved t, w') /\
    Todo.created_at t = clock w (reads w) /\
    Todo.updated_at t = clock w (S (reads w)) /\
    Todo.created_at t <= Todo.updated_at t /\
    reads w' = S (S (reads w)).
Proof.
  intros Hmono. eexists. eexists. split; [apply updateTodo_run|].
  cbn [Todo.created_at Todo.updated_at reads]. repeat split. apply Hmono.
Qed.

Lemma updateTodo_timestamps_ordered_witness :
  (forall n, clock worldWithOriginal n <= clock worldWithOriginal (S n)) /\
  exists t w',
    updateTodo (UpdateTodoInput.mk 1 None None (Some true)) worldWithOriginal
      = (Resolved t, w') /\
    Todo.created_at t = clock worldWithOriginal (reads worldWithOriginal) /\
    Todo.updated_at t = clock worldWithOriginal (S (reads worldWithOriginal)) /\
    Todo.created_at t <= Todo.updated_at t /\
    reads w' = S (S (reads worldWithOriginal)).
Proof.
  assert (H : forall n,
             clock worldWithOriginal n <= clock worldWithOriginal (S n))
    by (intros n; cbn [clock worldWithOriginal]; lia).
  split; [exact H|].
  exact (updateTodo_timestamps_ordered
           (UpdateTodoInput.mk 1 None None (Some true)) worldWithOriginal H).
Defined.

(** ** The client's handlers, run *)

Lemma handleSubmit_run
    (mutate : CreateTodoInput.t -> Async Todo.t) (trim : string -> string)
    (p : App.Page) :
  let s := App.state p in
  App.handleSubmit mutate trim p =
    if (trim (CreateTodoInput.title (App.formData s)) =? "")%string
    then (Resolved tt, p)
    else
      match mutate (App.formData s) (App.server p) with
      | (Resolved newTodo, server') =>
          (Resolved tt,
           App.mkPage
             (App.mkState (App.todos s ++ [newTodo]) false
                          (App.isLoadingTodos s) (CreateTodoInput.mk "" None))
             (App.browser_console p) server')
      | (Rejected e, server') =>
          (Resolved tt,
           App.mkPage
             (App.mkState (App.todos s) false (App.isLoadingTodos s)
                          (App.formData s))
             (App.browser_console p ++ [("Failed to create todo:", e)])
             server')
      end.
Proof.
  cbn zeta. unfold App.handleSubmit.
  destruct (trim _ =? "")%string; [reflexivity|].
  unfold App.bind, App.try_catch_finally, App.try_finally, App.try_catch,
    App.await, App.setIsLoading, App.setState.
  cbn [App.server App.state App.browser_console].
  destruct (mutate _ _) as [[newTodo|e] server']; reflexivity.
Qed.

Lemma loadTodos_run (query : Async (list Todo.t)) (p : App.Page) :
  let s := App.state p in
  App.loadTodos query p =
    match query (App.server p) with
    | (Resolved result, server') =>
        (Resolved tt,
         App.mkPage
           (App.mkState result (App.isLoading s) false (App.formData s))
           (App.browser_console p) server')
    | (Rejected e, server') =>
        (Resolved tt,
         App.mkPage
           (App.mkState (App.todos s) (App.isLoading s) false (App.formData s))
           (App.browser_console p ++ [("Failed to load todos:", e)])
           server')
    end.
Proof.
  cbn zeta.
  unfold App.loadTodos, App.bind, App.try_catch_finally, App.try_finally,
    App.try_catch, App.await, App.setIsLoadingTodos, App.setState.
  cbn [App.server App.state App.browser_console].
  destruct (query _) as [[result|e] server']; reflexivity.
Qed.

Lemma toggleTodo_run
    (mutate : UpdateTodoInput.t -> Async Todo.t) (todo : Todo.t)
    (p : App.Page) :
  let s := App.state p in
  App.toggleTodo mutate todo p =
    match mutate (UpdateTodoInput.mk (Todo.id todo) None None
                    (Some (negb (Todo.completed todo))))
                 (App.server p) with
    | (Resolved updatedTodo, server') =>
        (Resolved tt,
         App.mkPage
           (App.mkState
              (map (fun t => if Todo.id t =? Todo.id todo
                             then updatedTodo else t)
                   (App.todos s))
              (App.isLoading s) (App.isLoadingTodos s) (App.formData s))
           (App.browser_console p) server')
    | (Rejected e, server') =>
        (Resolved tt,
         App.mkPage s
           (App.browser_console p ++ [("Failed to update todo:", e)])
           server')
    end.
Proof.
  cbn zeta. unfold App.toggleTodo, App.bind, App.try_catch, App.await.
  destruct (mutate _ _) as [[updatedTodo|e] server']; reflexivity.
Qed.

Lemma App_deleteTodo_run
    (mutate : DeleteTodoInput.t -> Async DeleteResult) (todoId : Z)
    (p : App.Page) :
  let s := App.state p in
  App.deleteTodo mutate todoId p =
    match mutate (DeleteTodoInput.mk todoId) (App.server p) with
    | (Resolved _, server') =>
        (Resolved tt,
         App.mkPage
           (App.mkState
              (filter (fun t => negb (Todo.id t =? todoId)) (App.todos s))
              (App.isLoading s) (App.isLoadingTodos s) (App.formData s))
           (App.browser_console p) server')
    | (Rejected e, server') =>
        (Resolved tt,
         App.mkPage s
           (App.browser_console p ++ [("Failed to delete todo:", e)])
           server')
    end.
Proof.
  cbn zeta. unfold App.deleteTodo, App.bind, App.try_catch, App.await.
  destruct (mutate _ _) as [[r|e] server']; reflexivity.
Qed.

Lemma filter_empty {A : Type} (cond : A -> bool) (l : list A) :
  filter cond l = [] -> forall a, In a l -> cond a = false.
Proof.
  intros Hnil a Hin. destruct (cond a) eqn:Ha; [|reflexivity].
  now elim (filter_something cond l a Hin Ha).
Qed.

Lemma map_other_ids (x : Z) (u : Todo.t) (l : list Todo.t) :
  (forall a, In a l -> Todo.id a <> x) ->
  map (fun t => if Todo.id t =? x then u else t) l = l.
Proof.
  induction l as [|a l IH]; intros H; simpl; [reflexivity|].
  assert (Ha : (Todo.id a =? x) = false)
    by (apply Z.eqb_neq, H; now left).
  rewrite Ha, IH; [reflexivity|]. intros b Hb. apply H. now right.
Qed.

(** Under distinct ids, the replacement by id made by the toggle puts the
    new record in the place of the toggled one and moves nothing else. *)
Lemma replace_by_key_splits (l : list Todo.t) (todo u : Todo.t) :
  NoDup (map Todo.id l) -> In todo l ->
  exists before after,
    l = before ++ todo :: after /\
    map (fun t => if Todo.id t =? Todo.id todo then u else t) l
    = before ++ u :: after.
Proof.
  intros Hnd Hin.
  destruct (in_split _ _ Hin) as (before & after & ->).
  exists before, after. split; [reflexivity|].
  rewrite map_app in Hnd. simpl in Hnd.
  pose proof (NoDup_remove_2 _ _ _ Hnd) as Hfresh.
  rewrite map_app. simpl. rewrite Z.eqb_refl.
  rewrite !map_other_ids; [reflexivity| |].
  - intros a Ha E. apply Hfresh, in_or_app. right.
    rewrite <- E. now apply in_map.
  - intros a Ha E. apply Hfresh, in_or_app. left.
    rewrite <- E. now apply in_map.
Qed.

(** ** The form *)

(** X9: the description box shows what was typed.  After its [onChange]
    with any value, the value the box shows is that value; the
    description kept in the form data is never the empty string, which is
    kept as null; and the title and the list are not touched. *)
Theorem description_box_round_trip (value : string) (p : App.Page) :
  let p' := snd (App.description_onChange value p) in
  App.description_value (App.state p') = value /\
  CreateTodoInput.description (App.formData (App.state p'))
  <> Some ""%string /\
  CreateTodoInput.title (App.formData (App.state p'))
  = CreateTodoInput.title (App.formData (App.state p)) /\
  App.todos (App.state p') = App.todos (App.state p).
Proof.
  cbn zeta. unfold App.description_value. simpl.
  destruct value; simpl; repeat split; discriminate.
Qed.

(** X10: a submit with a title that trims to the empty string calls no
    remote procedure and changes nothing: the page after it, server
    included, is the page before it. *)
Theorem handleSubmit_blank_title_does_nothing
    (mutate : CreateTodoInput.t -> Async Todo.t) (trim : string -> string)
    (p : App.Page) :
  trim (CreateTodoInput.title (App.formData (App.state p))) = ""%string ->
  App.handleSubmit mutate trim p = (Resolved tt, p).
Proof.
  intros Hblank. rewrite handleSubmit_run. cbn zeta.
  now rewrite Hblank.
Qed.

Lemma handleSubmit_blank_title_does_nothing_witness :
  let p := App.mkPage
             (App.mkState [] false false (CreateTodoInput.mk "   " None))
             [] freshWorld in
  trim (CreateTodoInput.title (App.formData (App.state p))) = ""%string /\
  App.handleSubmit createTodo trim p = (Resolved tt, p).
Proof.
  cbn zeta.
  assert (H : trim (CreateTodoInput.title (App.formData (App.state
                (App.mkPage
                   (App.mkState [] false false
                                (CreateTodoInput.mk "   " None))
                   [] freshWorld)))) = ""%string) by reflexivity.
  split; [exact H|].
  exact (handleSubmit_blank_title_does_nothing createTodo trim _ H).
Defined.

(** X11: a submit whose create procedure resolves.  The handler
    resolves; the record returned is appended to the list, after the
    entries already there; the form is reset to an empty title and a null
    description; the loading flag is down; nothing is logged. *)
Theorem handleSubmit_appends_created_todo
    (mutate : CreateTodoInput.t -> Async Todo.t) (trim : string -> string)
    (p : App.Page) (newTodo : Todo.t) (server' : World) :
  trim (CreateTodoInput.title (App.formData (App.state p))) <> ""%string ->
  mutate (App.formData (App.state p)) (App.server p)
    = (Resolved newTodo, server') ->
  exists p',
    App.handleSubmit mutate trim p = (Resolved tt, p') /\
    App.todos (App.state p') = App.todos (App.state p) ++ [newTodo] /\
    App.formData (App.state p') = CreateTodoInput.mk "" None /\
    App.isLoading (App.state p') = false /\
    App.browser_console p' = App.browser_console p /\
    App.server p' = server'.
Proof.
  intros Hguard Hcall. rewrite handleSubmit_run. cbn zeta.
  apply String.eqb_neq in Hguard. rewrite Hguard, Hcall.
  eexists. split; [reflexivity|]. repeat split.
Qed.

Lemma handleSubmit_appends_created_todo_witness :
  trim (CreateTodoInput.title (App.formData (App.state pageWithTitle)))
  <> ""%string /\
  createTodo (App.formData (App.state pageWithTitle))
             (App.server pageWithTitle)
  = (Resolved (Todo.mk 1 "Buy milk" None false 2000 2000),
     snd (createTodo (App.formData (App.state pageWithTitle))
                     (App.server pageWithTitle))) /\
  exists p',
    App.handleSubmit createTodo trim pageWithTitle = (Resolved tt, p') /\
    App.todos (App.state p')
    = App.todos (App.state pageWithTitle)
      ++ [Todo.mk 1 "Buy milk" None false 2000 2000] /\
    App.formData (App.state p') = CreateTodoInput.mk "" None /\
    App.isLoading (App.state p') = false /\
    App.browser_console p' = App.browser_console pageWithTitle /\
    App.server p'
    = snd (createTodo (App.formData (App.state pageWithTitle))
                      (App.server pageWithTitle)).
Proof.
  assert (Hguard :
            trim (CreateTodoInput.title
                    (App.formData (App.state pageWithTitle))) <> ""%string)
    by (vm_compute; discriminate).
  assert (Hcall :
            createTodo (App.formData (App.state pageWithTitle))
                       (App.server pageWithTitle)
            = (Resolved (Todo.mk 1 "Buy milk" None false 2000 2000),
               snd (createTodo (App.formData (App.state pageWithTitle))
                               (App.server pageWithTitle))))
    by reflexivity.
  split; [exact Hguard|]. split; [exact Hcall|].
  exact (handleSubmit_appends_created_todo
           createTodo trim pageWithTitle _ _ Hguard Hcall).
Defined.

(** X12: a submit whose create procedure rejects.  The handler still
    resolves: the error is logged once in the browser under "Failed to
    create todo:" and goes no further; the list and what the user typed
    in the form are kept; the loading flag is down. *)
Theorem handleSubmit_keeps_form_on_failure
    (mutate : CreateTodoInput.t -> Async Todo.t) (trim : string -> string)
    (p : App.Page) (e : Error) (server' : World) :
  trim (CreateTodoInput.title (App.formData (App.state p))) <> ""%string ->
  mutate (App.formData (App.state p)) (App.server p)
    = (Rejected e, server') ->
  exists p',
    App.handleSubmit mutate trim p = (Resolved tt, p') /\
    App.todos (App.state p') = App.todos (App.state p) /\
    App.formData (App.state p') = App.formData (App.state p) /\
    App.isLoading (App.state p') = false /\
    App.browser_console p'
    = App.browser_console p ++ [("Failed to create todo:", e)].
Proof.
  intros Hguard Hcall. rewrite handleSubmit_run. cbn zeta.
  apply String.eqb_neq in Hguard. rewrite Hguard, Hcall.
  eexists. split; [reflexivity|]. repeat split.
Qed.

Lemma handleSubmit_keeps_form_on_failure_witness :
  let unreachable : CreateTodoInput.t -> Async Todo.t :=
    fun _ => throw (mkError "fetch failed") in
  trim (CreateTodoInput.title (App.formData (App.state pageWithTitle)))
  <> ""%string /\
  unreachable (App.formData (App.state pageWithTitle))
              (App.server pageWithTitle)
  = (Rejected (mkError "fetch failed"), freshWorld) /\
  exists p',
    App.handleSubmit unreachable trim pageWithTitle = (Resolved tt, p') /\
    App.todos (App.state p') = App.todos (App.state pageWithTitle) /\
    App.formData (App.state p') = App.formData (App.state pageWithTitle) /\
    App.isLoading (App.state p') = false /\
    App.browser_console p'
    = App.browser_console pageWithTitle
      ++ [("Failed to create todo:", mkError "fetch failed")].
Proof.
  cbn zeta.
  assert (Hguard :
            trim (CreateTodoInput.title
                    (App.formData (App.state pageWithTitle))) <> ""%string)
    by (vm_compute; discriminate).
  assert (Hcall :
            (fun _ : CreateTodoInput.t =>
               @throw Todo.t (mkError "fetch failed"))
              (App.formData (App.state pageWithTitle))
              (App.server pageWithTitle)
            = (Rejected (mkError "fetch failed"), freshWorld))
    by reflexivity.
  split; [exact Hguard|]. split; [exact Hcall|].
  exact (handleSubmit_keeps_form_on_failure
           (fun _ => throw (mkError "fetch failed")) trim pageWithTitle
           _ _ Hguard Hcall).
Defined.

(** ** The list *)

(** X13: loading through the select-all handler.  The handler resolves,
    the list of the component becomes the table of the server, the
    loading flag is down, nothing is logged and the server is left as it
    was. *)
Theorem loadTodos_shows_the_table (p : App.Page) :
  exists p',
    App.loadTodos getTodos p = (Resolved tt, p') /\
    App.todos (App.state p') = todosTable (db (App.server p)) /\
    App.isLoadingTodos (App.state p') = false /\
    App.formData (App.state p') = App.formData (App.state p) /\
    App.browser_console p' = App.browser_console p /\
    App.server p' = App.server p.
Proof.
  rewrite loadTodos_run. cbn zeta. rewrite getTodos_run.
  eexists. split; [reflexivity|]. repeat split.
Qed.

(** X14: a load whose query rejects.  The handler still resolves: the
    error is logged once in the browser under "Failed to load todos:",
    the list shown is kept and the loading flag is down all the same. *)
Theorem loadTodos_keeps_list_on_failure
    (query : Async (list Todo.t)) (p : App.Page) (e : Error)
    (server' : World) :
  query (App.server p) = (Rejected e, server') ->
  exists p',
    App.loadTodos query p = (Resolved tt, p') /\
    App.todos (App.state p') = App.todos (App.state p) /\
    App.isLoadingTodos (App.state p') = false /\
    App.browser_console p'
    = App.browser_console p ++ [("Failed to load todos:", e)].
Proof.
  intros Hcall. rewrite loadTodos_run. cbn zeta. rewrite Hcall.
  eexists. split; [reflexivity|]. repeat split.
Qed.

Lemma loadTodos_keeps_list_on_failure_witness :
  @throw (list Todo.t) (mkError "fetch failed") (App.server pageWithThree)
  = (Rejected (mkError "fetch failed"), worldWithThree) /\
  exists p',
    App.loadTodos (throw (mkError "fetch failed")) pageWithThree
    = (Resolved tt, p') /\
    App.todos (App.state p') = App.todos (App.state pageWithThree) /\
    App.isLoadingTodos (App.state p') = false /\
    App.browser_console p'
    = App.browser_console pageWithThree
      ++ [("Failed to load todos:", mkError "fetch failed")].
Proof.
  assert (Hcall :
            @throw (list Todo.t) (mkError "fetch failed")
                   (App.server pageWithThree)
            = (Rejected (mkError "fetch failed"), worldWithThree))
    by reflexivity.
  split; [exact Hcall|].
  exact (loadTodos_keeps_list_on_failure
           (throw (mkError "fetch failed")) pageWithThree _ _ Hcall).
Defined.

(** X15: a toggle never rejects and never changes the length of the
    list, however the update procedure settles; an entry whose id is not
    the toggled one stays where it is, as it is. *)
Theorem toggleTodo_keeps_the_others
    (mutate : UpdateTodoInput.t -> Async Todo.t) (todo : Todo.t)
    (p : App.Page) :
  exists p',
    App.toggleTodo mutate todo p = (Resolved tt, p') /\
    App.totalCount (App.state p') = App.totalCount (App.state p) /\
    forall (i : nat) (t : Todo.t),
      nth_error (App.todos (App.state p)) i = Some t ->
      Todo.id t <> Todo.id todo ->
      nth_error (App.todos (App.state p')) i = Some t.
Proof.
  rewrite toggleTodo_run. cbn zeta.
  destruct (mutate _ _) as [[updatedTodo|e] server'];
    (eexists; split; [reflexivity|]);
    unfold App.totalCount; cbn [App.state App.todos].
  - split; [apply length_map|].
    intros i t Hi Hid. rewrite nth_error_map, Hi. simpl.
    apply Z.eqb_neq in Hid. now rewrite Hid.
  - split; [reflexivity|]. auto.
Qed.

(** X16: a toggle through the update handler, on a list of distinct ids.
    The toggled entry is replaced, in its place, by a record with its id
    and the opposite completed flag, whose title is "Placeholder title",
    whose description is null and whose two timestamps are the readings
    of the server's clock; the entries before and after it are kept. *)
Theorem toggleTodo_replaces_the_entry (todo : Todo.t) (p : App.Page) :
  NoDup (map Todo.id (App.todos (App.state p))) ->
  In todo (App.todos (App.state p)) ->
  exists before after,
    App.todos (App.state p) = before ++ todo :: after /\
    App.todos (App.state (snd (App.toggleTodo updateTodo todo p)))
    = before
      ++ Todo.mk (Todo.id todo) "Placeholder title" None
                 (negb (Todo.completed todo))
                 (clock (App.server p) (reads (App.server p)))
                 (clock (App.server p) (S (reads (App.server p))))
      :: after.
Proof.
  intros Hnd Hin. rewrite toggleTodo_run. cbn zeta.
  rewrite updateTodo_run. cbn [snd App.state App.todos].
  cbn [UpdateTodoInput.id UpdateTodoInput.title UpdateTodoInput.description
       UpdateTodoInput.completed or_string].
  replace (or_boolean (Some (negb (Todo.completed todo))) false)
    with (negb (Todo.completed todo))
    by (now destruct (Todo.completed todo)).
  now apply replace_by_key_splits.
Qed.

Lemma toggleTodo_replaces_the_entry_witness :
  let todo := Todo.mk 2 "Todo 2" (Some "Second todo") true 1000 1000 in
  NoDup (map Todo.id (App.todos (App.state pageWithThree))) /\
  In todo (App.todos (App.state pageWithThree)) /\
  exists before after,
    App.todos (App.state pageWithThree) = before ++ todo :: after /\
    App.todos (App.state (snd (App.toggleTodo updateTodo todo pageWithThree)))
    = before
      ++ Todo.mk (Todo.id todo) "Placeholder title" None
                 (negb (Todo.completed todo))
                 (clock (App.server pageWithThree)
                        (reads (App.server pageWithThree)))
                 (clock (App.server pageWithThree)
                        (S (reads (App.server pageWithThree))))
      :: after.
Proof.
  cbn zeta.
  assert (Hnd : NoDup (map Todo.id (App.todos (App.state pageWithThree)))).
  { simpl. repeat (constructor; [simpl; intuition discriminate|]).
    constructor. }
  assert (Hin : In (Todo.mk 2 "Todo 2" (Some "Second todo") true 1000 1000)
                   (App.todos (App.state pageWithThree)))
    by (simpl; tauto).
  split; [exact Hnd|]. split; [exact Hin|].
  exact (toggleTodo_replaces_the_entry _ pageWithThree Hnd Hin).
Defined.

(** A toggle through the update handler, run. *)
Lemma toggleTodo_through_updateTodo (todo : Todo.t) (p : App.Page) :
  let s := App.state p in
  let w := App.server p in
  App.toggleTodo updateTodo todo p =
    (Resolved tt,
     App.mkPage
       (App.mkState
          (map (fun t =>
                  if Todo.id t =? Todo.id todo
                  then Todo.mk (Todo.id todo) "Placeholder title" None
                               (negb (Todo.completed todo))
                               (clock w (reads w)) (clock w (S (reads w)))
                  else t)
               (App.todos s))
          (App.isLoading s) (App.isLoadingTodos s) (App.formData s))
       (App.browser_console p)
       (mkWorld (db w) (clock w) (S (S (reads w))) (console w))).
Proof.
  cbn zeta. rewrite toggleTodo_run. cbn zeta. rewrite updateTodo_run.
  cbn [UpdateTodoInput.id UpdateTodoInput.title UpdateTodoInput.description
       UpdateTodoInput.completed or_string].
  now destruct (Todo.completed todo).
Qed.

(** X17: a toggle through the update handler, on a list of distinct ids,
    moves the count of completed entries by exactly one, up when the
    toggled entry was not completed and down when it was, and leaves the
    total as it is. *)
Theorem toggleTodo_moves_completedCount_by_one
    (todo : Todo.t) (p : App.Page) :
  NoDup (map Todo.id (App.todos (App.state p))) ->
  In todo (App.todos (App.state p)) ->
  let s' := App.state (snd (App.toggleTodo updateTodo todo p)) in
  (App.completedCount s' + (if Todo.completed todo then 1 else 0)
   = App.completedCount (App.state p)
     + (if Todo.completed todo then 0 else 1))%nat /\
  App.totalCount s' = App.totalCount (App.state p).
Proof.
  intros Hnd Hin. cbn zeta. rewrite toggleTodo_through_updateTodo.
  cbn zeta. cbn [snd App.state].
  unfold App.completedCount, App.totalCount. cbn [App.todos].
  split; [|apply length_map].
  destruct (replace_by_key_splits _ todo
              (Todo.mk (Todo.id todo) "Placeholder title" None
                 (negb (Todo.completed todo))
                 (clock (App.server p) (reads (App.server p)))
                 (clock (App.server p) (S (reads (App.server p)))))
              Hnd Hin)
    as (before & after & Hsplit & Hmap).
  rewrite Hmap, Hsplit, !filter_app. simpl.
  destruct (Todo.completed todo); simpl; rewrite !length_app; simpl; lia.
Qed.

Lemma toggleTodo_moves_completedCount_by_one_witness :
  let todo := Todo.mk 2 "Todo 2" (Some "Second todo") true 1000 1000 in
  let s' := App.state (snd (App.toggleTodo updateTodo todo pageWithThree)) in
  NoDup (map Todo.id (App.todos (App.state pageWithThree))) /\
  In todo (App.todos (App.state pageWithThree)) /\
  (App.completedCount s' + (if Todo.completed todo then 1 else 0)
   = App.completedCount (App.state pageWithThree)
     + (if Todo.completed todo then 0 else 1))%nat /\
  App.totalCount s' = App.totalCount (App.state pageWithThree).
Proof.
  cbn zeta.
  assert (Hnd : NoDup (map Todo.id (App.todos (App.state pageWithThree)))).
  { simpl. repeat (constructor; [simpl; intuition discriminate|]).
    constructor. }
  assert (Hin : In (Todo.mk 2 "Todo 2" (Some "Second todo") true 1000 1000)
                   (App.todos (App.state pageWithThree)))
    by (simpl; tauto).
  split; [exact Hnd|]. split; [exact Hin|].
  exact (toggleTodo_moves_completedCount_by_one _ pageWithThree Hnd Hin).
Defined.

(** X18: a toggle through the update handler does not outlive a reload.
    The table of the server is not changed by the toggle, and the list
    after a toggle followed by a load through the select-all handler is
    the list a load alone gives: the table as it was before the toggle. *)
Theorem toggleTodo_then_loadTodos (todo : Todo.t) (p : App.Page) :
  let toggled := snd (App.toggleTodo updateTodo todo p) in
  db (App.server toggled) = db (App.server p) /\
  App.todos (App.state (snd (App.loadTodos getTodos toggled)))
  = App.todos (App.state (snd (App.loadTodos getTodos p))) /\
  App.todos (App.state (snd (App.loadTodos getTodos toggled)))
  = todosTable (db (App.server p)).
Proof.
  cbn zeta. rewrite toggleTodo_through_updateTodo. cbn zeta.
  rewrite !loadTodos_run. cbn zeta. rewrite !getTodos_run.
  repeat split.
Qed.

(** X19: the delete button over the delete handler keeps the list in
    step with the server.  If the list shown is the table of the server,
    then after a click on any id, whether the server deleted a row or
    failed with not found, the handler has resolved and the list shown is
    again the table of the server. *)
Theorem App_deleteTodo_keeps_in_step (todoId : Z) (p : App.Page) :
  App.todos (App.state p) = todosTable (db (App.server p)) ->
  exists p',
    App.deleteTodo deleteTodo todoId p = (Resolved tt, p') /\
    App.todos (App.state p') = todosTable (db (App.server p')).
Proof.
  intros Hstep. rewrite App_deleteTodo_run. cbn zeta.
  rewrite deleteTodo_run. cbn zeta. cbn [DeleteTodoInput.id].
  destruct (filter (eq_id todoId) (todosTable (db (App.server p))))
    as [|r rs] eqn:Hgone;
    (eexists; split; [reflexivity|]);
    cbn [App.state App.server App.todos db todosTable].
  - rewrite Hstep. symmetry. apply filter_everything.
    now apply filter_empty.
  - now rewrite Hstep.
Qed.

Lemma App_deleteTodo_keeps_in_step_witness :
  App.todos (App.state pageWithThree)
  = todosTable (db (App.server pageWithThree)) /\
  exists p',
    App.deleteTodo deleteTodo 2 pageWithThree = (Resolved tt, p') /\
    App.todos (App.state p') = todosTable (db (App.server p')).
Proof.
  assert (H : App.todos (App.state pageWithThree)
              = todosTable (db (App.server pageWithThree)))
    by reflexivity.
  split; [exact H|].
  exact (App_deleteTodo_keeps_in_step 2 pageWithThree H).
Defined.

(** X20: a click on delete whose procedure rejects.  The handler still
    resolves: the error is logged once in the browser under "Failed to
    delete todo:" and the list, the entry aimed at included, is kept. *)
Theorem App_deleteTodo_keeps_list_on_failure
    (mutate : DeleteTodoInput.t -> Async DeleteResult) (todoId : Z)
    (p : App.Page) (e : Error) (server' : World) :
  mutate (DeleteTodoInput.mk todoId) (App.server p) = (Rejected e, server') ->
  exists p',
    App.deleteTodo mutate todoId p = (Resolved tt, p') /\
    App.state p' = App.state p /\
    App.browser_console p'
    = App.browser_console p ++ [("Failed to delete todo:", e)] /\
    App.server p' = server'.
Proof.
  intros Hcall. rewrite App_deleteTodo_run. cbn zeta. rewrite Hcall.
  eexists. split; [reflexivity|]. repeat split.
Qed.

Lemma App_deleteTodo_keeps_list_on_failure_witness :
  let e := mkError "Todo with id 7 not found" in
  let server' := snd (deleteTodo (DeleteTodoInput.mk 7) worldWithThree) in
  deleteTodo (DeleteTodoInput.mk 7) (App.server pageWithThree)
  = (Rejected e, server') /\
  exists p',
    App.deleteTodo deleteTodo 7 pageWithThree = (Resolved tt, p') /\
    App.state p' = App.state pageWithThree /\
    App.browser_console p'
    = App.browser_console pageWithThree ++ [("Failed to delete todo:", e)] /\
    App.server p' = server'.
Proof.
  cbn zeta.
  assert (Hcall :
            deleteTodo (DeleteTodoInput.mk 7) (App.server pageWithThree)
            = (Rejected (mkError "Todo with id 7 not found"),
               snd (deleteTodo (DeleteTodoInput.mk 7) worldWithThree)))
    by reflexivity.
  split; [exact Hcall|].
  exact (App_deleteTodo_keeps_list_on_failure
           deleteTodo 7 pageWithThree _ _ Hcall).
Defined.

(** X21: a click on delete whose procedure resolves.  The handler
    resolves and logs nothing; an entry is in the list afterwards exactly
    when it was there before and its id is not the deleted one. *)
Theorem App_deleteTodo_drops_the_id
    (mutate : DeleteTodoInput.t -> Async DeleteResult) (todoId : Z)
    (p : App.Page) (r : DeleteResult) (server' : World) :
  mutate (DeleteTodoInput.mk todoId) (App.server p) = (Resolved r, server') ->
  exists p',
    App.deleteTodo mutate todoId p = (Resolved tt, p') /\
    (forall t, In t (App.todos (App.state p')) <->
               In t (App.todos (App.state p)) /\ Todo.id t <> todoId) /\
    App.browser_console p' = App.browser_console p /\
    App.server p' = server'.
Proof.
  intros Hcall. rewrite App_deleteTodo_run. cbn zeta. rewrite Hcall.
  eexists. split; [reflexivity|]. cbn [App.state App.todos].
  split; [|split; reflexivity].
  intros t. rewrite filter_In, negb_true_iff, Z.eqb_neq. reflexivity.
Qed.

Lemma App_deleteTodo_drops_the_id_witness :
  let server' := snd (deleteTodo (DeleteTodoInput.mk 2) worldWithThree) in
  deleteTodo (DeleteTodoInput.mk 2) (App.server pageWithThree)
  = (Resolved {| success := true |}, server') /\
  exists p',
    App.deleteTodo deleteTodo 2 pageWithThree = (Resolved tt, p') /\
    (forall t, In t (App.todos (App.state p')) <->
               In t (App.todos (App.state pageWithThree)) /\ Todo.id t <> 2) /\
    App.browser_console p' = App.browser_console pageWithThree /\
    App.server p' = server'.
Proof.
  cbn zeta.
  assert (Hcall :
            deleteTodo (DeleteTodoInput.mk 2) (App.server pageWithThree)
            = (Resolved {| success := true |},
               snd (deleteTodo (DeleteTodoInput.mk 2) worldWithThree)))
    by reflexivity.
  split; [exact Hcall|].
  exact (App_deleteTodo_drops_the_id deleteTodo 2 pageWithThree _ _ Hcall).
Defined.
